(** * Runtime type generation (wrangler, [type-generation/runtime/index.ts])

    A shallow embedding of [generateRuntimeTypes] and [generate]: the two
    functions that resolve the output file, boot a Miniflare instance loaded
    with the type-descriptor worker, fetch the declarations for a
    compatibility date and flags, and write them to disk.

    The TypeScript is asynchronous and effectful.  It is embedded as a state
    and exception monad over a [World] holding the filesystem and the
    chronological trace of the calls made to the collaborators (Node's [fs]
    and [path], Miniflare, the logger, [getBasePath],
    [ensureDirectoryExists]).  The collaborators themselves are not part of
    the file under study: they are the fields of a [Platform] record, so
    every theorem holds for all of their behaviours, failures included. *)

From Stdlib Require Import String Ascii List.
From stdpp Require Import strings gmap.

Open Scope string_scope.

(** ** JavaScript strings and [Array.prototype.join] *)

Module Js.

(** [Array.prototype.join(sep)] as ECMAScript defines it: an accumulator [R]
    that starts empty, receives the separator before every element but the
    first (index [k > 0]), and then the element. *)
Fixpoint join_loop (sep : string) (k : nat) (R : string) (xs : list string)
  : string :=
  match xs with
  | [] => R
  | x :: rest =>
      let R1 := match k with O => R | S _ => R +:+ sep end in
      join_loop sep (S k) (R1 +:+ x) rest
  end.

Definition join (sep : string) (xs : list string) : string :=
  join_loop sep 0 "" xs.

(** Truthiness of [arr.length]: a number is truthy unless it is zero. *)
Definition truthy_length {A} (xs : list A) : bool :=
  negb (Nat.eqb (length xs) 0).

(** Truthiness of a value of type [string | undefined]: [undefined] and the
    empty string are falsy, every other string is truthy. *)
Definition truthy (s : option string) : bool :=
  match s with
  | None => false
  | Some EmptyString => false
  | Some (String _ _) => true
  end.

End Js.

(** ** Request path encoding (the body of [generate], lines 208-211) *)

(** [compatibilityFlags.length ? `+${compatibilityFlags.join("+")}` : ""] *)
Definition flagsString (compatibilityFlags : list string) : string :=
  if Js.truthy_length compatibilityFlags
  then "+" +:+ Js.join "+" compatibilityFlags
  else "".

(** [`http://dummy.com/${compatibilityDate}${flagsString}`] *)
Definition requestPath (compatibilityDate : string)
    (compatibilityFlags : list string) : string :=
  "http://dummy.com/" +:+ compatibilityDate +:+ flagsString compatibilityFlags.

(** The fixed authority every request path starts with. *)
Definition authority : string := "http://dummy.com/".

(** ** Errors, results and the world *)

(** A thrown JavaScript [Error], identified by its message. *)
Inductive exn : Type := Error (message : string).

Inductive Result (A : Type) : Type :=
| Ok (a : A)
| Throw (e : exn).
Arguments Ok {A} a.
Arguments Throw {A} e.

(** The rejection of a settled call, if any. *)
Definition failure {A} (r : Result A) : option exn :=
  match r with Ok _ => None | Throw e => Some e end.

(** A promise of [void], settled: fulfilled or rejected. *)
Definition settle (o : option exn) : Result unit :=
  match o with None => Ok tt | Some e => Throw e end.

(** The options object given to [new Miniflare(...)]. *)
Record MiniflareOptions : Type := {
  mf_compatibilityDate : string;
  mf_compatibilityFlags : list string;
  mf_modules : bool;
  mf_script : string
}.

(** A Miniflare instance: its identity and the options it was built from. *)
Record Miniflare : Type := {
  mf_id : nat;
  mf_options : MiniflareOptions
}.

(** A fetch response; [res.text()] either yields the body or rejects. *)
Record Response : Type := { res_text : Result string }.

(** Every call to a collaborator, with how it settled. *)
Inductive event : Type :=
| EvLog (message : string)
| EvGetBasePath (failed : option exn)
| EvReadFileSync (path : string) (failed : option exn)
| EvEnsureDirectoryExists (path : string) (failed : option exn)
| EvMiniflareNew (id : nat) (options : MiniflareOptions) (failed : option exn)
| EvDispatchFetch (id : nat) (url : string) (failed : option exn)
| EvText (id : nat) (failed : option exn)
| EvWriteFile (path content : string) (failed : option exn)
| EvDispose (id : nat) (failed : option exn).

(** The filesystem maps a path to the content of the file there; the trace
    is chronological; [next_mf] is the identity the next instance gets. *)
Record World : Type := {
  fs : gmap string string;
  trace : list event;
  next_mf : nat
}.

Definition emit (e : event) (w : World) : World :=
  {| fs := fs w; trace := trace w ++ [e]; next_mf := next_mf w |}.

(** The events a run added, given the worlds before and after it. *)
Definition events_since (w w' : World) : list event :=
  drop (length (trace w)) (trace w').

(** ** Collaborators

    Everything [index.ts] imports.  A collaborator may observe the whole
    world it is called in and may fail.  Only [ensureDirectoryExists] and
    [writeFile] change the filesystem; the sandbox has no access to it. *)
Record Platform : Type := {
  (* ../paths *)
  getBasePath : World -> Result string;
  (* path *)
  dirname : string -> string;
  resolve : string -> string -> string;
  (* fs, fs/promises *)
  readFileSync : string -> World -> Result string;
  writeFile : string -> string -> World -> option exn * gmap string string;
  (* ../utils/log-file *)
  ensureDirectoryExists : string -> World -> option exn * gmap string string;
  (* miniflare *)
  Miniflare_new : MiniflareOptions -> World -> option exn;
  dispatchFetch : Miniflare -> string -> World -> Result Response;
  dispose : Miniflare -> World -> option exn;
  (* scheduling: when the write and the disposal both reject, whether the
     write's rejection is the first to reach [Promise.all] *)
  write_rejects_first : World -> bool
}.

(** ** The monad of asynchronous, throwing code *)

Definition M (A : Type) : Type := World -> Result A * World.

Definition ret {A} (a : A) : M A := fun w => (Ok a, w).

Definition throw {A} (e : exn) : M A := fun w => (Throw e, w).

Definition bind {A B} (m : M A) (k : A -> M B) : M B :=
  fun w =>
    match m w with
    | (Ok a, w1) => k a w1
    | (Throw e, w1) => (Throw e, w1)
    end.

Notation "x <- m ;; k" := (bind m (fun x => k))
  (at level 100, m at next level, right associativity).
Notation "m ;;; k" := (bind m (fun _ => k))
  (at level 100, right associativity).

Section Calls.
Variable P : Platform.

Definition logger_log (message : string) : M unit :=
  fun w => (Ok tt, emit (EvLog message) w).

Definition call_getBasePath : M string :=
  fun w =>
    let r := getBasePath P w in
    (r, emit (EvGetBasePath (failure r)) w).

Definition call_readFileSync (path : string) : M string :=
  fun w =>
    let r := readFileSync P path w in
    (r, emit (EvReadFileSync path (failure r)) w).

Definition call_ensureDirectoryExists (path : string) : M unit :=
  fun w =>
    let '(o, fs') := ensureDirectoryExists P path w in
    (settle o,
     {| fs := fs';
        trace := trace w ++ [EvEnsureDirectoryExists path o];
        next_mf := next_mf w |}).

Definition new_Miniflare (options : MiniflareOptions) : M Miniflare :=
  fun w =>
    let id := next_mf w in
    let o := Miniflare_new P options w in
    (match o with
     | None => Ok {| mf_id := id; mf_options := options |}
     | Some e => Throw e
     end,
     {| fs := fs w;
        trace := trace w ++ [EvMiniflareNew id options o];
        next_mf := S id |}).

Definition call_dispatchFetch (mf : Miniflare) (url : string) : M Response :=
  fun w =>
    let r := dispatchFetch P mf url w in
    (r, emit (EvDispatchFetch (mf_id mf) url (failure r)) w).

Definition call_text (mf : Miniflare) (res : Response) : M string :=
  fun w =>
    let r := res_text res in
    (r, emit (EvText (mf_id mf) (failure r)) w).

(** [Promise.all([writeFile(outfilePath, content, "utf8"), mf.dispose()])].
    Building the array calls [writeFile] and then [mf.dispose()], each
    returning its promise at once, so both operations are started whatever
    the other does.  [Promise.all] fulfils when both fulfil and rejects with
    the first rejection to arrive.  The world returned is the one in which
    both operations have settled. *)
Definition Promise_all_writeFile_dispose
    (outfilePath content : string) (mf : Miniflare) : M unit :=
  fun w =>
    let '(ow, fs') := writeFile P outfilePath content w in
    let od := dispose P mf w in
    (match ow, od with
     | None, None => Ok tt
     | Some e, None => Throw e
     | None, Some e => Throw e
     | Some ew, Some ed => Throw (if write_rejects_first P w then ew else ed)
     end,
     {| fs := fs';
        trace := trace w ++ [EvWriteFile outfilePath content ow;
                             EvDispose (mf_id mf) od];
        next_mf := next_mf w |}).

End Calls.

(** ** [generate] (lines 188-217) *)

Record GenerateOptions : Type := {
  outfilePath : string;
  compatibilityDate : string;
  compatibilityFlags : option (list string)   (* optional, default [[]] *)
}.

(** The compatibility profile the sandbox itself runs with. *)
Definition internalOptions (workerScript : string) : MiniflareOptions :=
  {| mf_compatibilityDate := "2024-01-01";
     mf_compatibilityFlags := ["nodejs_compat"; "rtti_api"];
     mf_modules := true;
     mf_script := workerScript |}.

Definition workerScriptRelativePath : string :=
  "../../../workerd/bazel-bin/types/dist/index.mjs".

Definition generate (P : Platform) (o : GenerateOptions) : M unit :=
  base <- call_getBasePath P ;;
  workerScript <-
    call_readFileSync P (resolve P base workerScriptRelativePath) ;;
  mf <- new_Miniflare P (internalOptions workerScript) ;;
  let path :=
    requestPath (compatibilityDate o) (default [] (compatibilityFlags o)) in
  res <- call_dispatchFetch P mf path ;;
  content <- call_text mf res ;;
  Promise_all_writeFile_dispose P (outfilePath o) content mf.

(** ** [generateRuntimeTypes] (lines 143-175) *)

Record Config : Type := {
  compatibility_date : option string;
  compatibility_flags : option (list string)
}.

Record GenerateRuntimeTypesOptions : Type := {
  config : Config;
  outFile : option string;
  rootPath : option string
}.

Definition DEFAULT_OUTFILE_RELATIVE_PATH : string :=
  "./.wrangler/types/runtime.d.ts".

Definition missing_date_error : exn :=
  Error "Config must have a compatability date.".

Definition missing_rootPath_error : exn :=
  Error "A rootPath must be specified if no outFile is provided".

(** [outFile ?? resolve(dirname(rootPath as string), DEFAULT_...)], together
    with the guard before it: [None] is the case the guard throws on. *)
Definition outFileAbsolute (P : Platform) (outFile rootPath : option string)
  : option string :=
  match outFile, rootPath with
  | Some f, _ => Some f
  | None, Some r =>
      Some (resolve P (dirname P r) DEFAULT_OUTFILE_RELATIVE_PATH)
  | None, None => None
  end.

Definition generateRuntimeTypes (P : Platform)
    (a : GenerateRuntimeTypesOptions) : M unit :=
  match compatibility_date (config a) with
  | None | Some "" => throw missing_date_error
  | Some compatibility_date =>
      match outFileAbsolute P (outFile a) (rootPath a) with
      | None => throw missing_rootPath_error
      | Some outFileAbsolute =>
          call_ensureDirectoryExists P outFileAbsolute ;;;
          logger_log "Generating runtime types" ;;;
          generate P {| outfilePath := outFileAbsolute;
                        compatibilityDate := compatibility_date;
                        compatibilityFlags :=
                          compatibility_flags (config a) |} ;;;
          logger_log ("Runtime types generated and written to "
                        +:+ outFileAbsolute +:+ " " +:+ String "010" "")
      end
  end.

(** ** Observations on traces *)

Definition is_dispose_of (id : nat) (e : event) : bool :=
  match e with EvDispose i _ => Nat.eqb i id | _ => false end.

Definition is_write (e : event) : bool :=
  match e with EvWriteFile _ _ _ => true | _ => false end.

Fixpoint count_events (p : event -> bool) (es : list event) : nat :=
  match es with
  | [] => 0
  | e :: rest => (if p e then 1 else 0) + count_events p rest
  end.

(** How many times [dispose] was called on the instance [id]. *)
Definition dispose_count (id : nat) (es : list event) : nat :=
  count_events (is_dispose_of id) es.

(** The options of every [new Miniflare(...)], in order. *)
Fixpoint boot_options (es : list event) : list MiniflareOptions :=
  match es with
  | [] => []
  | EvMiniflareNew _ options _ :: rest => options :: boot_options rest
  | _ :: rest => boot_options rest
  end.

(** How the call an event records settled. *)
Definition event_failure (e : event) : option exn :=
  match e with
  | EvLog _ => None
  | EvGetBasePath f | EvReadFileSync _ f | EvEnsureDirectoryExists _ f
  | EvMiniflareNew _ _ f | EvDispatchFetch _ _ f | EvText _ f
  | EvWriteFile _ _ f | EvDispose _ f => f
  end.

(** A [writeFile] of the run rejected. *)
Definition write_failed (es : list event) : Prop :=
  exists p c e, In (EvWriteFile p c (Some e)) es.

(** The instance [id] was created: its constructor returned. *)
Definition created (id : nat) (es : list event) : Prop :=
  exists options, In (EvMiniflareNew id options None) es.

(** ** A model of Node's [path.posix], for the examples

    The theorems below hold for every [dirname] and [resolve]; the worked
    examples need concrete ones.  [dirname] follows Node's scan from the end
    of the path; [resolve] is the two-argument case: the right-most absolute
    argument wins, the working directory completes a relative result, and
    the segments are normalised. *)
Module Posix.

Definition is_slash (c : ascii) : bool := Ascii.eqb c "/"%char.

(** The scan of [dirname]: [i] runs from the last index down to 1, trailing
    slashes are skipped, and the first slash after a name ends the result. *)
Fixpoint dirname_scan (rev_tail : list ascii) (i : nat) (matchedSlash : bool)
  : option nat :=
  match rev_tail with
  | [] => None
  | c :: rest =>
      if is_slash c
      then if matchedSlash then dirname_scan rest (i - 1) true else Some i
      else dirname_scan rest (i - 1) false
  end.

Definition dirname (path : string) : string :=
  match list_ascii_of_string path with
  | [] => "."
  | c0 :: tail =>
      let hasRoot := is_slash c0 in
      match dirname_scan (rev tail) (length tail) true with
      | None => if hasRoot then "/" else "."
      | Some e =>
          if hasRoot && Nat.eqb e 1 then "//"
          else string_of_list_ascii (take e (c0 :: tail))
      end
  end.

(** Split at every slash. *)
Fixpoint segments_from (cur : list ascii) (cs : list ascii) : list string :=
  match cs with
  | [] => [string_of_list_ascii (rev cur)]
  | c :: rest =>
      if is_slash c
      then string_of_list_ascii (rev cur) :: segments_from [] rest
      else segments_from (c :: cur) rest
  end.

Definition segments (path : string) : list string :=
  segments_from [] (list_ascii_of_string path).

(** Normalisation below the root: empty and [.] segments vanish, [..]
    removes the segment before it and is dropped at the root. *)
Definition normalize_step (acc : list string) (seg : string) : list string :=
  if String.eqb seg "" || String.eqb seg "." then acc
  else if String.eqb seg ".." then removelast acc
  else acc ++ [seg].

Definition normalize (segs : list string) : list string :=
  fold_left normalize_step segs [].

Definition is_absolute (path : string) : bool :=
  match path with
  | String c _ => is_slash c
  | EmptyString => false
  end.

(** [resolve(from, to)] with the working directory [cwd], itself absolute. *)
Definition resolve (cwd from to : string) : string :=
  let joined :=
    if is_absolute to then to
    else if is_absolute from then from +:+ "/" +:+ to
    else cwd +:+ "/" +:+ from +:+ "/" +:+ to in
  "/" +:+ String.concat "/" (normalize (segments joined)).

End Posix.

(** ** Deterministic collaborators with injectable faults *)
Module Stub.

Record Faults : Type := {
  mkdir_fault : option exn;
  boot_fault : option exn;
  dispatch_fault : option exn;
  body_fault : option exn;
  (* the write fails after this many characters reached the file *)
  write_fault : option (exn * nat);
  dispose_fault : option exn
}.

Definition no_faults : Faults :=
  {| mkdir_fault := None; boot_fault := None; dispatch_fault := None;
     body_fault := None; write_fault := None; dispose_fault := None |}.

(** Reading looks the path up.  Writing opens the destination itself with
    flag [w], which truncates it, and then writes the data: a write that
    fails midway leaves the prefix written so far.  The sandbox answers a
    request with [respond options url]. *)
Definition platform (cwd basePath : string)
    (respond : MiniflareOptions -> string -> string) (f : Faults)
  : Platform :=
  {| getBasePath := fun _ => Ok basePath;
     dirname := Posix.dirname;
     resolve := Posix.resolve cwd;
     readFileSync := fun path w =>
       match fs w !! path with
       | Some c => Ok c
       | None => Throw (Error "ENOENT: no such file or directory")
       end;
     writeFile := fun path content w =>
       match write_fault f with
       | None => (None, <[path := content]> (fs w))
       | Some (e, n) => (Some e, <[path := substring 0 n content]> (fs w))
       end;
     ensureDirectoryExists := fun _ w => (mkdir_fault f, fs w);
     Miniflare_new := fun _ _ => boot_fault f;
     dispatchFetch := fun mf url _ =>
       match dispatch_fault f with
       | Some e => Throw e
       | None =>
           Ok {| res_text :=
                   match body_fault f with
                   | Some e => Throw e
                   | None => Ok (respond (mf_options mf) url)
                   end |}
       end;
     dispose := fun _ _ => dispose_fault f;
     write_rejects_first := fun _ => true |}.

Definition basePath : string := "/repo/packages/wrangler".

Definition scriptPath : string := "/workerd/bazel-bin/types/dist/index.mjs".

(** A sandbox that always returns the same declaration. *)
Definition respond_X (_ : MiniflareOptions) (_ : string) : string :=
  "declare const X: string;".

Definition P0 (f : Faults) : Platform := platform "/" basePath respond_X f.

(** A world where the bundled worker exists and the output file already
    holds declarations from an earlier run. *)
Definition w0 : World :=
  {| fs := <[scriptPath := "export default {}"]>
             (<["/tmp/out.d.ts" := "declare const OLD: number;"]> ∅);
     trace := [];
     next_mf := 0 |}.

Definition opts0 : GenerateOptions :=
  {| outfilePath := "/tmp/out.d.ts";
     compatibilityDate := "2023-07-24";
     compatibilityFlags := Some ["experimental"] |}.

Definition dispatch_fails : Faults :=
  {| mkdir_fault := None; boot_fault := None;
     dispatch_fault := Some (Error "workerd exited");
     body_fault := None; write_fault := None; dispose_fault := None |}.

Definition body_fails : Faults :=
  {| mkdir_fault := None; boot_fault := None; dispatch_fault := None;
     body_fault := Some (Error "body stream aborted");
     write_fault := None; dispose_fault := None |}.

Definition boot_fails : Faults :=
  {| mkdir_fault := None;
     boot_fault := Some (Error "invalid Miniflare options");
     dispatch_fault := None; body_fault := None; write_fault := None;
     dispose_fault := None |}.

Definition mkdir_fails : Faults :=
  {| mkdir_fault := Some (Error "EACCES: permission denied, mkdir");
     boot_fault := None; dispatch_fault := None; body_fault := None;
     write_fault := None; dispose_fault := None |}.

(** The disk fills up after seven characters. *)
Definition write_fails : Faults :=
  {| mkdir_fault := None; boot_fault := None; dispatch_fault := None;
     body_fault := None;
     write_fault := Some (Error "ENOSPC: no space left on device, write", 7);
     dispose_fault := None |}.

Definition cfg0 : Config :=
  {| compatibility_date := Some "2023-07-24";
     compatibility_flags := Some ["experimental"] |}.

Definition args_outFile : GenerateRuntimeTypesOptions :=
  {| config := cfg0; outFile := Some "/tmp/out.d.ts"; rootPath := None |}.

Definition args_rootPath : GenerateRuntimeTypesOptions :=
  {| config := cfg0; outFile := None;
     rootPath := Some "/Users/me/my-project/wrangler.toml" |}.

Definition args_no_paths : GenerateRuntimeTypesOptions :=
  {| config := cfg0; outFile := None; rootPath := None |}.

Definition args_empty_date : GenerateRuntimeTypesOptions :=
  {| config := {| compatibility_date := Some "";
                  compatibility_flags := Some ["experimental"] |};
     outFile := Some "/tmp/out.d.ts";
     rootPath := None |}.

(** The write goes through but the instance cannot be shut down. *)
Definition dispose_fails : Faults :=
  {| mkdir_fault := None; boot_fault := None; dispatch_fault := None;
     body_fault := None; write_fault := None;
     dispose_fault := Some (Error "workerd did not exit") |}.

(** A sandbox whose answer depends on the worker it was booted with and on
    the request: the worker's text, then the request path. *)
Definition respond_echo (options : MiniflareOptions) (url : string)
  : string :=
  mf_script options +:+ " // " +:+ url.

Definition P1 (f : Faults) : Platform := platform "/" basePath respond_echo f.

(** Options whose output file is the bundled worker itself. *)
Definition opts_onto_worker : GenerateOptions :=
  {| outfilePath := scriptPath;
     compatibilityDate := "2023-07-24";
     compatibilityFlags := Some ["experimental"] |}.

End Stub.


(** ** The sandbox's own profile

    What [generate] hands to [new Miniflare(...)] in the world [w]: nothing
    if the bundled worker cannot be read, else the fixed profile around the
    worker's text.  The caller's options are not an argument. *)
Definition boot_profile (P : Platform) (w : World) : list MiniflareOptions :=
  match getBasePath P w with
  | Throw _ => []
  | Ok base =>
      match readFileSync P (resolve P base workerScriptRelativePath)
              (emit (EvGetBasePath None) w) with
      | Throw _ => []
      | Ok workerScript => [internalOptions workerScript]
      end
  end.

(** ** The output target of a run

    The path [t] is the output target of a run with events [es] and result
    [r]: the run starts by preparing the directory of [t], writes nowhere
    else, and if it succeeds it has written [t]. *)
Definition run_targets (es : list event) (r : Result unit) (t : string)
  : Prop :=
  (exists f rest, es = EvEnsureDirectoryExists t f :: rest)
  /\ (forall p c f, In (EvWriteFile p c f) es -> p = t)
  /\ (r = Ok tt -> exists c, In (EvWriteFile t c None) es).

(** ** The release discipline, as a property of one run

    The instance a run creates is the one numbered [next_mf w].  Scoped
    release would mean: whenever the run created it, the run disposed of it
    exactly once. *)
Definition disposed_exactly_once (P : Platform) (o : GenerateOptions)
    (w : World) : Prop :=
  let '(_, w') := generate P o w in
  created (next_mf w) (events_since w w') ->
  dispose_count (next_mf w) (events_since w w') = 1.

(** ** All-or-nothing output, as a property of one run

    A run whose write fails leaves at the destination what was there
    before: no file if there was none, the same content otherwise. *)
Definition failed_write_preserves_target (P : Platform) (o : GenerateOptions)
    (w : World) : Prop :=
  let '(_, w') := generate P o w in
  write_failed (events_since w w') ->
  fs w' !! outfilePath o = fs w !! outfilePath o.

(** ** Earlier versions kept in the sources *)

Definition newline : string := String "010" "".

(** [index.ts], lines 1-100: [generateRuntimeTypes(rootPath, config)], with
    no way to choose the output file.  Its [generate] (lines 71-100) is, to
    the letter, the one of lines 188-217. *)
Module V1.

Definition OUTFILE_RELATIVE_PATH : string := "./.wrangler/types/runtime.d.ts".

Definition generateRuntimeTypes (P : Platform) (rootPath : string)
    (config : Config) : M unit :=
  match compatibility_date config with
  | None | Some "" => throw (Error "Config must have a compatability date.")
  | Some compatibility_date =>
      let configDir := dirname P rootPath in
      let outfileRelative := OUTFILE_RELATIVE_PATH in
      let outfileAbsolute := resolve P configDir outfileRelative in
      call_ensureDirectoryExists P outfileAbsolute ;;;
      logger_log "Generating runtime types" ;;;
      generate P {| outfilePath := outfileAbsolute;
                    compatibilityDate := compatibility_date;
                    compatibilityFlags := compatibility_flags config |} ;;;
      logger_log ("Runtime types generated and written to "
                    +:+ outfileRelative +:+ " " +:+ newline)
  end.

End V1.

(** The unnamed source file: [generateRuntimeTypes(configPath, config)] and
    a [generate] that logs the request path before dispatching it and the
    output path before writing to it. *)
Module Part000.

Definition OUTFILE_RELATIVE_PATH : string := "./.wrangler/types/runtime.d.ts".

Definition generate (P : Platform) (o : GenerateOptions) : M unit :=
  base <- call_getBasePath P ;;
  workerScript <-
    call_readFileSync P (resolve P base workerScriptRelativePath) ;;
  mf <- new_Miniflare P (internalOptions workerScript) ;;
  let path :=
    requestPath (compatibilityDate o) (default [] (compatibilityFlags o)) in
  logger_log ("Fetching types from " +:+ path) ;;;
  res <- call_dispatchFetch P mf path ;;
  content <- call_text mf res ;;
  logger_log ("Writing types to " +:+ outfilePath o) ;;;
  Promise_all_writeFile_dispose P (outfilePath o) content mf.

Definition generateRuntimeTypes (P : Platform) (configPath : string)
    (config : Config) : M unit :=
  match compatibility_date config with
  | None | Some "" =>
      throw (Error "Config file must have a compatability date.")
  | Some compatibility_date =>
      let configDir := dirname P configPath in
      let outfileRelative := OUTFILE_RELATIVE_PATH in
      let outfileAbsolute := resolve P configDir outfileRelative in
      call_ensureDirectoryExists P outfileAbsolute ;;;
      logger_log "Generating runtime types" ;;;
      generate P {| outfilePath := outfileAbsolute;
                    compatibilityDate := compatibility_date;
                    compatibilityFlags := compatibility_flags config |} ;;;
      logger_log ("Runtime types generated and written to "
                    +:+ outfileRelative +:+ " " +:+ newline)
  end.

End Part000.

(** ** Further observations on traces *)

Definition is_dispatch (e : event) : bool :=
  match e with EvDispatchFetch _ _ _ => true | _ => false end.

Definition is_boot (e : event) : bool :=
  match e with EvMiniflareNew _ _ _ => true | _ => false end.

Definition is_log (e : event) : bool :=
  match e with EvLog _ => true | _ => false end.

(** The last step of [generate]: the write or the disposal next to it. *)
Definition is_final_step (e : event) : bool :=
  match e with
  | EvWriteFile _ _ _ | EvDispose _ _ => true
  | _ => false
  end.

(** ** Strings without the delimiter *)

Definition is_plus (c : ascii) : bool := Ascii.eqb c "+"%char.

Fixpoint plus_free (s : string) : bool :=
  match s with
  | EmptyString => true
  | String c rest => negb (is_plus c) && plus_free rest
  end.

(** Cut a string at every ['+']: the reading of a request path that gives
    back the date and the flags. *)
Fixpoint split_plus (s : string) : list string :=
  match s with
  | EmptyString => [""]
  | String c rest =>
      if is_plus c then "" :: split_plus rest
      else match split_plus rest with
           | [] => [String c ""]
           | h :: t => String c h :: t
           end
  end.

(** Every flag with the delimiter in front of it. *)
Fixpoint plus_prefixed (flags : list string) : string :=
  match flags with
  | [] => ""
  | f :: rest => "+" +:+ f +:+ plus_prefixed rest
  end.

(** ** Running twice: the environment and the property

    A deterministic sandbox answers by what it was booted with and what it
    is asked: two instances built from the same options give the same
    response to the same request, in any world. *)
Definition sandbox_deterministic (P : Platform) : Prop :=
  forall mf mf' url wa wb,
    mf_options mf = mf_options mf' ->
    dispatchFetch P mf url wa = dispatchFetch P mf' url wb.

(** The installation does not move. *)
Definition base_path_fixed (P : Platform) : Prop :=
  forall wa wb, getBasePath P wa = getBasePath P wb.

(** Reading a path depends on the file there and on nothing else. *)
Definition fs_reads_content (P : Platform) : Prop :=
  forall p wa wb,
    fs wa !! p = fs wb !! p -> readFileSync P p wa = readFileSync P p wb.

(** A write that succeeds has stored what it was given. *)
Definition fs_write_stores (P : Platform) : Prop :=
  forall p c wa fs', writeFile P p c wa = (None, fs') -> fs' !! p = Some c.

(** A write, successful or not, leaves every other path alone. *)
Definition fs_write_local (P : Platform) : Prop :=
  forall p c wa ow fs',
    writeFile P p c wa = (ow, fs') ->
    forall q, q <> p -> fs' !! q = fs wa !! q.

(** Two successful runs in a row leave the same content at the output
    path. *)
Definition same_content_twice (P : Platform) (o : GenerateOptions)
    (w : World) : Prop :=
  forall w1 w2,
    generate P o w = (Ok tt, w1) ->
    generate P o w1 = (Ok tt, w2) ->
    fs w2 !! outfilePath o = fs w1 !! outfilePath o.

(** The world [w] after the calls [es], with [n] the next instance. *)
Definition world_after (w : World) (es : list event) (n : nat) : World :=
  {| fs := fs w; trace := (trace w ++ es)%list; next_mf := n |}.

(** * Properties *)

(** ** Request path encoding *)

Example requestPath_no_flags :
  requestPath "2024-01-01" [] = "http://dummy.com/2024-01-01".
Proof. reflexivity. Qed.

Example requestPath_two_flags :
  requestPath "2024-01-01" ["nodejs_compat"; "rtti_api"]
  = "http://dummy.com/2024-01-01+nodejs_compat+rtti_api".
Proof. reflexivity. Qed.

Example posix_dirname_examples :
  Posix.dirname "/Users/me/my-project/wrangler.toml" = "/Users/me/my-project"
  /\ Posix.dirname "./wrangler.toml" = "."
  /\ Posix.dirname "wrangler.toml" = "."
  /\ Posix.dirname "/wrangler.toml" = "/"
  /\ Posix.dirname "/a/b/" = "/a".
Proof. repeat split; reflexivity. Qed.

Example posix_resolve_examples :
  Posix.resolve "/work" "/Users/me/my-project" DEFAULT_OUTFILE_RELATIVE_PATH
    = "/Users/me/my-project/.wrangler/types/runtime.d.ts"
  /\ Posix.resolve "/work" "." DEFAULT_OUTFILE_RELATIVE_PATH
    = "/work/.wrangler/types/runtime.d.ts"
  /\ Posix.resolve "/" Stub.basePath workerScriptRelativePath
    = Stub.scriptPath.
Proof. repeat split; reflexivity. Qed.

Example stub_generate_succeeds :
  let '(r, w') := generate (Stub.P0 Stub.no_faults) Stub.opts0 Stub.w0 in
  r = Ok tt
  /\ fs w' !! "/tmp/out.d.ts" = Some "declare const X: string;"
  /\ events_since Stub.w0 w' =
       [EvGetBasePath None;
        EvReadFileSync Stub.scriptPath None;
        EvMiniflareNew 0 (internalOptions "export default {}") None;
        EvDispatchFetch 0 "http://dummy.com/2023-07-24+experimental" None;
        EvText 0 None;
        EvWriteFile "/tmp/out.d.ts" "declare const X: string;" None;
        EvDispose 0 None].
Proof. vm_compute. repeat split; reflexivity. Qed.

(** The end-to-end scenario: date 2023-07-24, flag experimental, explicit
    output file, a sandbox answering with one declaration. *)
Example stub_generateRuntimeTypes_succeeds :
  let '(r, w') :=
    generateRuntimeTypes (Stub.P0 Stub.no_faults) Stub.args_outFile Stub.w0 in
  r = Ok tt
  /\ fs w' !! "/tmp/out.d.ts" = Some "declare const X: string;"
  /\ events_since Stub.w0 w' =
       [EvEnsureDirectoryExists "/tmp/out.d.ts" None;
        EvLog "Generating runtime types";
        EvGetBasePath None;
        EvReadFileSync Stub.scriptPath None;
        EvMiniflareNew 0 (internalOptions "export default {}") None;
        EvDispatchFetch 0 "http://dummy.com/2023-07-24+experimental" None;
        EvText 0 None;
        EvWriteFile "/tmp/out.d.ts" "declare const X: string;" None;
        EvDispose 0 None;
        EvLog ("Runtime types generated and written to /tmp/out.d.ts "
               +:+ String "010" "")].
Proof. vm_compute. repeat split; reflexivity. Qed.

(** A failed write does not prevent the disposal started next to it. *)
Example stub_write_failure_still_disposes :
  let '(r, w') := generate (Stub.P0 Stub.write_fails) Stub.opts0 Stub.w0 in
  r = Throw (Error "ENOSPC: no space left on device, write")
  /\ dispose_count 0 (events_since Stub.w0 w') = 1.
Proof. vm_compute. split; reflexivity. Qed.

(** A failed boot leaves the files alone and disposes of nothing. *)
Example stub_boot_failure_keeps_files :
  let '(r, w') := generate (Stub.P0 Stub.boot_fails) Stub.opts0 Stub.w0 in
  r = Throw (Error "invalid Miniflare options")
  /\ fs w' = fs Stub.w0
  /\ dispose_count 0 (events_since Stub.w0 w') = 0.
Proof. vm_compute. repeat split; reflexivity. Qed.

(** A response whose body cannot be read: thrown on, instance not disposed. *)
Example stub_body_failure_leaks :
  let '(r, w') := generate (Stub.P0 Stub.body_fails) Stub.opts0 Stub.w0 in
  r = Throw (Error "body stream aborted")
  /\ fs w' = fs Stub.w0
  /\ dispose_count 0 (events_since Stub.w0 w') = 0.
Proof. vm_compute. repeat split; reflexivity. Qed.

(** The directory cannot be created: nothing else happens. *)
Example stub_mkdir_failure_stops :
  let '(r, w') :=
    generateRuntimeTypes (Stub.P0 Stub.mkdir_fails) Stub.args_rootPath
      Stub.w0 in
  r = Throw (Error "EACCES: permission denied, mkdir")
  /\ events_since Stub.w0 w' =
       [EvEnsureDirectoryExists
          "/Users/me/my-project/.wrangler/types/runtime.d.ts"
          (Some (Error "EACCES: permission denied, mkdir"))].
Proof. vm_compute. split; reflexivity. Qed.

(** [generate] itself accepts an empty date and asks for it. *)
Example stub_generate_empty_date :
  let o := {| outfilePath := "/tmp/out.d.ts"; compatibilityDate := "";
              compatibilityFlags := None |} in
  let '(r, w') := generate (Stub.P0 Stub.no_faults) o Stub.w0 in
  r = Ok tt
  /\ In (EvDispatchFetch 0 "http://dummy.com/" None)
       (events_since Stub.w0 w').
Proof. vm_compute. split; [reflexivity|]. do 3 right. left. reflexivity. Qed.

Lemma append_assoc (a b c : string) : (a +:+ b) +:+ c = a +:+ (b +:+ c).
Proof.
  induction a as [|ch a IH]; [reflexivity|].
  change (String ch ((a +:+ b) +:+ c) = String ch (a +:+ (b +:+ c))).
  now rewrite IH.
Qed.

Lemma append_nil_r (a : string) : a +:+ "" = a.
Proof.
  induction a as [|ch a IH]; [reflexivity|].
  change (String ch (a +:+ "") = String ch a). now rewrite IH.
Qed.

(** Past the first element the loop appends [sep] and the element, which is
    what [String.concat] builds from the left. *)
Lemma join_loop_concat (sep : string) (xs : list string) :
  forall (k : nat) (R x : string),
    Js.join_loop sep (S k) (R +:+ x) xs = R +:+ String.concat sep (x :: xs).
Proof.
  induction xs as [|y ys IH]; intros k R x.
  - reflexivity.
  - change (Js.join_loop sep (S (S k)) (((R +:+ x) +:+ sep) +:+ y) ys
            = R +:+ (x +:+ sep +:+ String.concat sep (y :: ys))).
    rewrite IH. now rewrite !append_assoc.
Qed.

Lemma join_concat (sep : string) (xs : list string) :
  Js.join sep xs = String.concat sep xs.
Proof.
  destruct xs as [|x xs]; [reflexivity|].
  unfold Js.join. change (Js.join_loop sep 1 ("" +:+ x) xs = String.concat sep (x :: xs)).
  now rewrite join_loop_concat.
Qed.

(** C3: the request path is the fixed authority followed by the date; with
    no flags nothing follows the date, and with flags the date is followed by
    ['+'] and the flags joined by ['+'] in the order given.  The date
    2024-01-01 encodes to [.../2024-01-01] without flags and to
    [.../2024-01-01+nodejs_compat+rtti_api] with the two flags. *)
Theorem requestPath_format (d : string) (f : string) (rest : list string) :
  requestPath d [] = authority +:+ d
  /\ requestPath d (f :: rest)
     = authority +:+ d +:+ "+" +:+ String.concat "+" (f :: rest)
  /\ requestPath "2024-01-01" [] = authority +:+ "2024-01-01"
  /\ requestPath "2024-01-01" ["nodejs_compat"; "rtti_api"]
     = authority +:+ "2024-01-01+nodejs_compat+rtti_api".
Proof.
  repeat split; try reflexivity.
  - unfold requestPath, flagsString, authority. cbn [Js.truthy_length length Nat.eqb negb].
    now rewrite append_nil_r.
  - unfold requestPath, flagsString, authority.
    cbn [Js.truthy_length length Nat.eqb negb].
    now rewrite join_concat.
Qed.

(** C10: the encoding is not injective.  The date [2024-01-01+a] without
    flags and the date [2024-01-01] with the flag [a] are different
    configurations with the same request path, since neither the date nor
    the flags are escaped. *)
Theorem requestPath_not_injective :
  requestPath "2024-01-01+a" [] = requestPath "2024-01-01" ["a"]
  /\ ("2024-01-01+a", @nil string) <> ("2024-01-01", ["a"])
  /\ ~ (forall d1 f1 d2 f2,
          requestPath d1 f1 = requestPath d2 f2 -> d1 = d2 /\ f1 = f2).
Proof.
  split; [reflexivity|]. split; [discriminate|].
  intros inj.
  destruct (inj "2024-01-01+a" [] "2024-01-01" ["a"] eq_refl) as [_ H].
  discriminate H.
Qed.

(** ** Running [generate]: case analysis on the collaborators *)

Lemma events_since_app (w : World) (es : list event) (f : gmap string string)
    (n : nat) :
  events_since w {| fs := f; trace := trace w ++ es; next_mf := n |} = es.
Proof. unfold events_since. cbn [trace]. apply drop_app_length. Qed.

Lemma events_since_refl (w : World) : events_since w w = [].
Proof. unfold events_since. apply drop_all. Qed.

Ltac unfold_run :=
  unfold generate, bind, call_getBasePath, call_readFileSync, new_Miniflare,
    call_dispatchFetch, call_text, Promise_all_writeFile_dispose,
    call_ensureDirectoryExists, logger_log, throw, ret, emit;
  cbn [fs trace next_mf fst snd mf_id mf_options].

(** Split on the outcome of the next collaborator call in the goal. *)
Ltac next_call :=
  match goal with
  | |- context [match getBasePath ?P ?w with _ => _ end] =>
      destruct (getBasePath P w) eqn:?
  | |- context [match readFileSync ?P ?p ?w with _ => _ end] =>
      destruct (readFileSync P p w) eqn:?
  | |- context [match Miniflare_new ?P ?o ?w with _ => _ end] =>
      destruct (Miniflare_new P o w) eqn:?
  | |- context [match dispatchFetch ?P ?m ?u ?w with _ => _ end] =>
      destruct (dispatchFetch P m u w) eqn:?
  | |- context [match res_text ?r with _ => _ end] =>
      destruct (res_text r) eqn:?
  | |- context [let (_, _) := writeFile ?P ?p ?c ?w in _] =>
      destruct (writeFile P p c w) as [[?|] ?] eqn:?
  | |- context [match dispose ?P ?m ?w with _ => _ end] =>
      destruct (dispose P m w) eqn:?
  | |- context [let (_, _) := ensureDirectoryExists ?P ?p ?w in _] =>
      destruct (ensureDirectoryExists P p w) as [[?|] ?] eqn:?
  end;
  cbn [fs trace next_mf fst snd mf_id mf_options failure settle].

Ltac flatten_trace :=
  repeat rewrite <- app_assoc; cbn [app];
  repeat rewrite events_since_app;
  repeat rewrite events_since_refl.

Ltac run_cases := unfold_run; repeat next_call; flatten_trace.

Ltac split_In :=
  repeat match goal with
  | H : In _ _ |- _ => cbn [In] in H
  | H : _ \/ _ |- _ => destruct H
  | H : False |- _ => destruct H
  | H : @eq event _ _ |- _ => first [discriminate H | injection H as ?]
  end;
  subst.

(** Find, in a trace written out, the event whose call raised the error. *)
Ltac pick_event :=
  let rec go tac :=
    first
      [ eexists; split;
        [ cbn [In]; tac; left; reflexivity
        | cbn [event_failure]; reflexivity ]
      | go ltac:(tac; right) ] in
  go idtac.

(** ** Disposal of the sandbox instance *)

(** C1 (as the code has it): [dispose] is called on the instance exactly
    once when the run reaches the final step, where it is started together
    with the write: on success and when the write fails.  Nothing guards the
    earlier steps, so when the dispatch or the reading of the body fails the
    instance, although created, is never disposed of. *)
Theorem generate_disposes_with_the_write (P : Platform) (o : GenerateOptions)
    (w : World) :
  let '(r, w') := generate P o w in
  let es := events_since w w' in
  let id := next_mf w in
  dispose_count id es = (if existsb is_write es then 1 else 0)
  /\ (r = Ok tt -> dispose_count id es = 1)
  /\ (forall p c e, In (EvWriteFile p c (Some e)) es ->
        dispose_count id es = 1)
  /\ (forall url e, In (EvDispatchFetch id url (Some e)) es ->
        created id es /\ dispose_count id es = 0)
  /\ (forall e, In (EvText id (Some e)) es ->
        created id es /\ dispose_count id es = 0).
Proof.
  run_cases;
    unfold dispose_count, created;
    cbn [count_events is_dispose_of existsb is_write orb];
    rewrite ?Nat.eqb_refl;
    (split; [reflexivity|]);
    repeat split; intros; split_In; try discriminate; try reflexivity;
    eexists; cbn [In]; eauto.
Qed.

(** C1, counterexample: the dispatch fails after the instance was created,
    [generate] rethrows, and no [dispose] was ever called. *)
Lemma generate_leaks_on_dispatch_failure :
  let P := Stub.P0 Stub.dispatch_fails in
  let '(r, w') := generate P Stub.opts0 Stub.w0 in
  r = Throw (Error "workerd exited")
  /\ events_since Stub.w0 w' =
       [EvGetBasePath None;
        EvReadFileSync Stub.scriptPath None;
        EvMiniflareNew 0 (internalOptions "export default {}") None;
        EvDispatchFetch 0 "http://dummy.com/2023-07-24+experimental"
          (Some (Error "workerd exited"))]
  /\ dispose_count 0 (events_since Stub.w0 w') = 0
  /\ ~ disposed_exactly_once P Stub.opts0 Stub.w0.
Proof.
  vm_compute. repeat split; try reflexivity.
  intros H.
  assert (0 = 1) as E by (apply H; eexists; do 2 right; left; reflexivity).
  discriminate E.
Qed.

(** ** What a failed run leaves on disk *)



(** ** Validation at the entry point *)

(** C4: without a compatibility date (absent or empty)
    [generateRuntimeTypes] throws its configuration error and leaves the
    world untouched: no directory created, nothing read, no sandbox booted.
    [generate] has no such check: whatever the date, it starts by calling
    its collaborators, and every error it throws is one a collaborator
    raised. *)
Theorem missing_date_rejected_at_entry_only (P : Platform)
    (a : GenerateRuntimeTypesOptions) (w : World) :
  Js.truthy (compatibility_date (config a)) = false ->
  generateRuntimeTypes P a w = (Throw missing_date_error, w)
  /\ forall o : GenerateOptions,
       let '(r, w') := generate P o w in
       (exists f rest, events_since w w' = EvGetBasePath f :: rest)
       /\ forall e, r = Throw e ->
            exists ev, In ev (events_since w w') /\ event_failure ev = Some e.
Proof.
  intros Hdate. split.
  - unfold generateRuntimeTypes.
    destruct (compatibility_date (config a)) as [[|c d]|];
      [reflexivity | discriminate Hdate | reflexivity].
  - intros o. run_cases.
    all: split; [do 2 eexists; reflexivity|].
    all: intros e' He'; try discriminate He'; injection He' as <-.
    all: try match goal with
             | |- context [if ?b then _ else _] => destruct b
             end.
    all: pick_event.
Qed.

Lemma missing_date_rejected_at_entry_only_witness :
  Js.truthy (compatibility_date (config Stub.args_empty_date)) = false
  /\ generateRuntimeTypes (Stub.P0 Stub.no_faults) Stub.args_empty_date Stub.w0
     = (Throw missing_date_error, Stub.w0).
Proof.
  split; [reflexivity|].
  apply (missing_date_rejected_at_entry_only
           (Stub.P0 Stub.no_faults) Stub.args_empty_date Stub.w0).
  reflexivity.
Defined.

(** C5: with neither [outFile] nor [rootPath], [generateRuntimeTypes] throws
    a configuration error and the world is untouched: no directory created,
    no sandbox booted, no I/O.  The error is the one about [rootPath] when
    the compatibility date is present; a missing date is reported first. *)
Theorem missing_paths_rejected_before_any_step (P : Platform)
    (a : GenerateRuntimeTypesOptions) (w : World) :
  outFile a = None ->
  rootPath a = None ->
  generateRuntimeTypes P a w
  = (Throw (if Js.truthy (compatibility_date (config a))
            then missing_rootPath_error
            else missing_date_error),
     w).
Proof.
  intros HoutFile HrootPath. unfold generateRuntimeTypes.
  rewrite HoutFile, HrootPath.
  destruct (compatibility_date (config a)) as [[|c d]|]; reflexivity.
Qed.

Lemma missing_paths_rejected_before_any_step_witness :
  outFile Stub.args_no_paths = None
  /\ rootPath Stub.args_no_paths = None
  /\ generateRuntimeTypes (Stub.P0 Stub.no_faults) Stub.args_no_paths Stub.w0
     = (Throw missing_rootPath_error, Stub.w0).
Proof.
  split; [reflexivity|]. split; [reflexivity|].
  apply (missing_paths_rejected_before_any_step
           (Stub.P0 Stub.no_faults) Stub.args_no_paths Stub.w0);
    reflexivity.
Defined.

(** ** Running [generateRuntimeTypes] *)

Ltac entry_cases a :=
  unfold generateRuntimeTypes;
  destruct (compatibility_date (config a)) as [[|? ?]|];
  destruct (outFileAbsolute _ (outFile a) (rootPath a)) eqn:?;
  run_cases.

(** ** Directory preparation comes first *)


(** ** The sandbox's profile does not depend on the caller *)

Lemma generate_boot_options (P : Platform) (o : GenerateOptions) (w : World) :
  boot_options (events_since w (snd (generate P o w))) = boot_profile P w.
Proof.
  unfold boot_profile. run_cases; reflexivity.
Qed.

(** C7: whatever date and flags the caller asks about, the instance is
    booted with the same arguments: compatibility date 2024-01-01, flags
    nodejs_compat and rtti_api, modules on, and the bundled worker as the
    script.  Two runs from the same world with different options boot
    alike. *)
Theorem boot_profile_is_fixed (P : Platform) (o1 o2 : GenerateOptions)
    (w : World) :
  let es1 := events_since w (snd (generate P o1 w)) in
  let es2 := events_since w (snd (generate P o2 w)) in
  boot_options es1 = boot_options es2
  /\ boot_options es1 = boot_profile P w
  /\ Forall (fun opts =>
               mf_compatibilityDate opts = "2024-01-01"
               /\ mf_compatibilityFlags opts = ["nodejs_compat"; "rtti_api"]
               /\ mf_modules opts = true)
       (boot_options es1).
Proof.
  cbv zeta. rewrite !generate_boot_options.
  split; [reflexivity|]. split; [reflexivity|].
  unfold boot_profile.
  destruct (getBasePath P w); [|constructor].
  destruct (readFileSync _ _ _); constructor; [|constructor].
  repeat split.
Qed.

(** ** Where the declarations go *)

Lemma entry_run_targets (P : Platform) (a : GenerateRuntimeTypesOptions)
    (w : World) (t : string) :
  Js.truthy (compatibility_date (config a)) = true ->
  outFileAbsolute P (outFile a) (rootPath a) = Some t ->
  let '(r, w') := generateRuntimeTypes P a w in
  run_targets (events_since w w') r t.
Proof.
  intros Hdate Htarget. unfold generateRuntimeTypes, run_targets.
  rewrite Htarget.
  destruct (compatibility_date (config a)) as [[|c0 d]|];
    try discriminate Hdate.
  run_cases.
  all: split; [do 2 eexists; reflexivity|].
  all: split; [intros; split_In; try discriminate; reflexivity|].
  all: intros Hr; try discriminate Hr.
  all: eexists; cbn [In]; eauto 10.
Qed.

(** C8: with a compatibility date present, the output target of
    [generateRuntimeTypes] is [outFile] itself when it is given, and then
    [rootPath] plays no part in the run; otherwise it is
    [./.wrangler/types/runtime.d.ts] resolved against the directory of
    [rootPath]. *)
Theorem output_target_resolution (P : Platform) (cfg : Config) (w : World) :
  Js.truthy (compatibility_date cfg) = true ->
  (forall (f : string) (rp : option string),
     let a := {| config := cfg; outFile := Some f; rootPath := rp |} in
     (let '(r, w') := generateRuntimeTypes P a w in
      run_targets (events_since w w') r f)
     /\ generateRuntimeTypes P a w
        = generateRuntimeTypes P
            {| config := cfg; outFile := Some f; rootPath := None |} w)
  /\ (forall root : string,
        let a := {| config := cfg; outFile := None; rootPath := Some root |} in
        let '(r, w') := generateRuntimeTypes P a w in
        run_targets (events_since w w') r
          (resolve P (dirname P root) "./.wrangler/types/runtime.d.ts")).
Proof.
  intros Hdate. split.
  - intros f rp a. split.
    + apply (entry_run_targets P a w f Hdate). reflexivity.
    + reflexivity.
  - intros root a.
    apply (entry_run_targets P a w _ Hdate). reflexivity.
Qed.

Lemma output_target_resolution_witness :
  Js.truthy (compatibility_date Stub.cfg0) = true
  /\ (let '(r, w') :=
        generateRuntimeTypes (Stub.P0 Stub.no_faults) Stub.args_outFile
          Stub.w0 in
      run_targets (events_since Stub.w0 w') r "/tmp/out.d.ts")
  /\ (let '(r, w') :=
        generateRuntimeTypes (Stub.P0 Stub.no_faults) Stub.args_rootPath
          Stub.w0 in
      run_targets (events_since Stub.w0 w') r
        "/Users/me/my-project/.wrangler/types/runtime.d.ts").
Proof.
  pose proof (output_target_resolution (Stub.P0 Stub.no_faults) Stub.cfg0
                Stub.w0 eq_refl) as [HoutFile HrootPath].
  split; [reflexivity|]. split.
  - exact (proj1 (HoutFile "/tmp/out.d.ts" None)).
  - exact (HrootPath "/Users/me/my-project/wrangler.toml").
Defined.

(** ** Running twice *)

(** A successful run read the worker from the filesystem it started with,
    was answered by an instance booted from that worker, and wrote the body
    of the answer with one successful [writeFile] on the output path, issued
    on the filesystem it started with. *)
Lemma generate_ok_inv (P : Platform) (o : GenerateOptions) (w w' : World) :
  generate P o w = (Ok tt, w') ->
  exists base script mf res content wr wd ww,
    getBasePath P w = Ok base
    /\ readFileSync P (resolve P base workerScriptRelativePath) wr = Ok script
    /\ fs wr = fs w
    /\ dispatchFetch P mf
         (requestPath (compatibilityDate o)
            (default [] (compatibilityFlags o)))
         wd = Ok res
    /\ mf_options mf = internalOptions script
    /\ res_text res = Ok content
    /\ writeFile P (outfilePath o) content ww = (None, fs w')
    /\ fs ww = fs w.
Proof.
  run_cases; intros Hrun; try discriminate Hrun.
  injection Hrun as <-. cbn [fs].
  do 8 eexists.
  repeat (split; [first [eassumption | reflexivity]|]). reflexivity.
Qed.

(** C9 (as the code has it): run [generate] twice in a row with the same
    options, the output path not being the bundled worker file.  If the
    sandbox is deterministic, answering by the options it was booted with
    and the request path, the base path is fixed, reads return the file's
    content and writes store theirs and touch no other path, then two
    successful runs leave the same content at the output path. *)
Theorem generate_twice_same_content (P : Platform) (o : GenerateOptions)
    (w w1 w2 : World) :
  sandbox_deterministic P ->
  base_path_fixed P ->
  fs_reads_content P ->
  fs_write_stores P ->
  fs_write_local P ->
  (forall base,
     getBasePath P w = Ok base ->
     outfilePath o <> resolve P base workerScriptRelativePath) ->
  generate P o w = (Ok tt, w1) ->
  generate P o w1 = (Ok tt, w2) ->
  exists content,
    fs w1 !! outfilePath o = Some content
    /\ fs w2 !! outfilePath o = Some content.
Proof.
  intros Hdet Hbase Hread Hstore Hlocal Htarget Hrun1 Hrun2.
  apply generate_ok_inv in Hrun1
    as (b1 & s1 & mf1 & res1 & c1 & wr1 & wd1 & ww1
        & Hb1 & Hr1 & Hfr1 & Hd1 & Ho1 & Ht1 & Hw1 & Hfw1).
  apply generate_ok_inv in Hrun2
    as (b2 & s2 & mf2 & res2 & c2 & wr2 & wd2 & ww2
        & Hb2 & Hr2 & Hfr2 & Hd2 & Ho2 & Ht2 & Hw2 & Hfw2).
  (* the same base path, hence the same worker path *)
  rewrite (Hbase w1 w), Hb1 in Hb2. injection Hb2 as <-.
  (* the first write left the worker file alone *)
  assert (fs wr2 !! resolve P b1 workerScriptRelativePath
          = fs wr1 !! resolve P b1 workerScriptRelativePath) as Hsame.
  { rewrite Hfr2, Hfr1, <- Hfw1.
    apply (Hlocal _ _ _ _ _ Hw1). intros E. apply (Htarget b1 Hb1).
    now symmetry. }
  (* hence the same worker, the same instance options, the same answer *)
  rewrite (Hread _ _ _ Hsame), Hr1 in Hr2. injection Hr2 as <-.
  rewrite (Hdet mf2 mf1 _ wd2 wd1), Hd1 in Hd2 by congruence.
  injection Hd2 as <-. rewrite Ht1 in Ht2. injection Ht2 as <-.
  exists c1. split; eapply Hstore; eassumption.
Qed.

Lemma generate_twice_same_content_witness :
  let P := Stub.P1 Stub.no_faults in
  let w1 := snd (generate P Stub.opts0 Stub.w0) in
  let w2 := snd (generate P Stub.opts0 w1) in
  exists content,
    fs w1 !! "/tmp/out.d.ts" = Some content
    /\ fs w2 !! "/tmp/out.d.ts" = Some content.
Proof.
  apply (generate_twice_same_content (Stub.P1 Stub.no_faults) Stub.opts0
           Stub.w0).
  - intros mf mf' url wa wb Hopts. cbn. now rewrite Hopts.
  - intros wa wb. reflexivity.
  - intros p wa wb Hp. cbn. now rewrite Hp.
  - intros p c wa fs' Hw. injection Hw as <-. apply lookup_insert_eq.
  - intros p c wa ow fs' Hw q Hq. injection Hw as _ <-.
    apply lookup_insert_ne. congruence.
  - intros base Hb. injection Hb as <-. vm_compute. discriminate.
  - vm_compute. reflexivity.
  - vm_compute. reflexivity.
Defined.

(** C9, counterexample: the output path is the bundled worker file and the
    sandbox, deterministic, answers with the text of the worker it runs
    followed by the request path.  The first run overwrites the worker with
    its answer, the second run boots that answer, and the two runs, both
    successful, leave different contents. *)
Lemma generate_twice_onto_the_worker_differs :
  let P := Stub.P1 Stub.no_faults in
  let '(r1, w1) := generate P Stub.opts_onto_worker Stub.w0 in
  let '(r2, w2) := generate P Stub.opts_onto_worker w1 in
  sandbox_deterministic P
  /\ r1 = Ok tt /\ r2 = Ok tt
  /\ fs w1 !! Stub.scriptPath
     = Some ("export default {}"
             +:+ " // http://dummy.com/2023-07-24+experimental")
  /\ fs w2 !! Stub.scriptPath
     = Some ("export default {}"
             +:+ " // http://dummy.com/2023-07-24+experimental"
             +:+ " // http://dummy.com/2023-07-24+experimental")
  /\ ~ same_content_twice P Stub.opts_onto_worker Stub.w0.
Proof.
  cbv zeta.
  destruct (generate (Stub.P1 Stub.no_faults) Stub.opts_onto_worker Stub.w0)
    as [r1 w1] eqn:Hrun1.
  destruct (generate (Stub.P1 Stub.no_faults) Stub.opts_onto_worker w1)
    as [r2 w2] eqn:Hrun2.
  vm_compute in Hrun1. injection Hrun1 as <- <-.
  vm_compute in Hrun2. injection Hrun2 as <- <-.
  split.
  { intros mf mf' url wa wb Hopts. cbn. now rewrite Hopts. }
  split; [reflexivity|]. split; [reflexivity|].
  split; [vm_compute; reflexivity|]. split; [vm_compute; reflexivity|].
  intros Hsame.
  specialize (Hsame _ _ ltac:(vm_compute; reflexivity)
                        ltac:(vm_compute; reflexivity)).
  vm_compute in Hsame. discriminate Hsame.
Qed.

(** * Further properties *)

(** ** The encoding can be read back when nothing contains the delimiter *)

Lemma concat_plus_prefixed (f : string) (rest : list string) :
  String.concat "+" (f :: rest) = f +:+ plus_prefixed rest.
Proof.
  revert f. induction rest as [|g rest IH]; intros f.
  - cbn [String.concat plus_prefixed]. now rewrite append_nil_r.
  - change (f +:+ "+" +:+ String.concat "+" (g :: rest)
            = f +:+ "+" +:+ g +:+ plus_prefixed rest).
    now rewrite IH.
Qed.

Lemma flagsString_plus_prefixed (flags : list string) :
  flagsString flags = plus_prefixed flags.
Proof.
  destruct flags as [|f rest]; [reflexivity|].
  unfold flagsString. cbn [Js.truthy_length length Nat.eqb negb].
  now rewrite join_concat, concat_plus_prefixed.
Qed.

Lemma split_plus_free (d : string) :
  plus_free d = true -> split_plus d = [d].
Proof.
  induction d as [|c d IH]; [reflexivity|].
  cbn [plus_free split_plus]. intros H.
  apply andb_prop in H as [Hc Hd].
  destruct (is_plus c); [discriminate Hc|].
  now rewrite (IH Hd).
Qed.

Lemma split_plus_cut (d rest : string) :
  plus_free d = true ->
  split_plus (d +:+ "+" +:+ rest) = d :: split_plus rest.
Proof.
  induction d as [|c d IH]; [reflexivity|].
  cbn [plus_free]. intros H.
  apply andb_prop in H as [Hc Hd].
  change (split_plus (String c (d +:+ "+" +:+ rest))
          = String c d :: split_plus rest).
  cbn [split_plus].
  destruct (is_plus c); [discriminate Hc|].
  now rewrite (IH Hd).
Qed.

Lemma split_plus_encoded (flags : list string) :
  forall d : string,
    plus_free d = true ->
    forallb plus_free flags = true ->
    split_plus (d +:+ plus_prefixed flags) = d :: flags.
Proof.
  induction flags as [|f rest IH]; intros d Hd Hflags.
  - cbn [plus_prefixed]. rewrite append_nil_r. now apply split_plus_free.
  - cbn [forallb] in Hflags. apply andb_prop in Hflags as [Hf Hrest].
    cbn [plus_prefixed]. rewrite (split_plus_cut d _ Hd).
    now rewrite (IH f Hf Hrest).
Qed.

(** X1: when neither the dates nor the flags contain ['+'], the request
    path determines the configuration: two configurations with the same
    path have the same date and the same flags in the same order. *)
Theorem requestPath_injective_without_plus (d1 d2 : string)
    (f1 f2 : list string) :
  plus_free d1 = true -> forallb plus_free f1 = true ->
  plus_free d2 = true -> forallb plus_free f2 = true ->
  requestPath d1 f1 = requestPath d2 f2 ->
  d1 = d2 /\ f1 = f2.
Proof.
  intros Hd1 Hf1 Hd2 Hf2 Heq. unfold requestPath in Heq.
  apply (inj (String.app "http://dummy.com/")) in Heq.
  rewrite !flagsString_plus_prefixed in Heq.
  apply (f_equal split_plus) in Heq.
  rewrite (split_plus_encoded f1 d1 Hd1 Hf1) in Heq.
  rewrite (split_plus_encoded f2 d2 Hd2 Hf2) in Heq.
  injection Heq as -> ->. split; reflexivity.
Qed.

Lemma requestPath_injective_without_plus_witness :
  plus_free "2024-01-01" = true
  /\ forallb plus_free ["nodejs_compat"; "rtti_api"] = true
  /\ ("2024-01-01" = "2024-01-01"
      /\ ["nodejs_compat"; "rtti_api"] = ["nodejs_compat"; "rtti_api"]).
Proof.
  split; [reflexivity|]. split; [reflexivity|].
  apply (requestPath_injective_without_plus
           "2024-01-01" "2024-01-01"
           ["nodejs_compat"; "rtti_api"] ["nodejs_compat"; "rtti_api"]);
    reflexivity.
Defined.

(** ** More on one run of [generate] *)

(** Cut a trace written out at every place a hypothesis says it splits. *)
Ltac split_trace :=
  repeat match goal with
  | H : [] = (?pre ++ _ :: _)%list |- _ => destruct pre; discriminate H
  | H : (_ :: _) = (?pre ++ _ :: _)%list |- _ =>
      destruct pre; cbn [app] in H; injection H as ? H
  end;
  subst.

(** X2: a successful [generate] is exactly this run.  It got the base
    path, read the worker at the fixed path under it, booted one instance
    with the fixed profile around the text it had read, dispatched the
    encoded request to that instance, read the body of the response it got,
    wrote that body, unchanged, to the output path and disposed of the
    instance; each call was made in the world the calls before it left,
    each succeeded, and these seven calls are all it did. *)
Theorem generate_success_trace (P : Platform) (o : GenerateOptions)
    (w w' : World) :
  generate P o w = (Ok tt, w') ->
  exists base script res content,
    let n := next_mf w in
    let mf := {| mf_id := n; mf_options := internalOptions script |} in
    let url :=
      requestPath (compatibilityDate o)
        (default [] (compatibilityFlags o)) in
    let e1 := EvGetBasePath None in
    let e2 :=
      EvReadFileSync (resolve P base workerScriptRelativePath) None in
    let e3 := EvMiniflareNew n (internalOptions script) None in
    let e4 := EvDispatchFetch n url None in
    let e5 := EvText n None in
    getBasePath P w = Ok base
    /\ readFileSync P (resolve P base workerScriptRelativePath)
         (world_after w [e1] n) = Ok script
    /\ Miniflare_new P (internalOptions script) (world_after w [e1; e2] n)
       = None
    /\ dispatchFetch P mf url (world_after w [e1; e2; e3] (S n)) = Ok res
    /\ res_text res = Ok content
    /\ writeFile P (outfilePath o) content
         (world_after w [e1; e2; e3; e4; e5] (S n))
       = (None, fs w')
    /\ dispose P mf (world_after w [e1; e2; e3; e4; e5] (S n)) = None
    /\ events_since w w' =
         [e1; e2; e3; e4; e5;
          EvWriteFile (outfilePath o) content None;
          EvDispose n None].
Proof.
  unfold world_after.
  unfold_run; repeat next_call; intros Hrun; try discriminate Hrun.
  injection Hrun as <-.
  repeat match goal with
         | H : context [((_ ++ _) ++ _)%list] |- _ =>
             rewrite <- app_assoc in H; cbn [app] in H
         end.
  flatten_trace. cbn [fs].
  do 4 eexists. cbv zeta.
  repeat (split; [first [eassumption | reflexivity]|]). reflexivity.
Qed.

Lemma generate_success_trace_witness :
  let P := Stub.P1 Stub.no_faults in
  events_since Stub.w0 (snd (generate P Stub.opts0 Stub.w0)) =
    [EvGetBasePath None;
     EvReadFileSync Stub.scriptPath None;
     EvMiniflareNew 0 (internalOptions "export default {}") None;
     EvDispatchFetch 0 "http://dummy.com/2023-07-24+experimental" None;
     EvText 0 None;
     EvWriteFile "/tmp/out.d.ts"
       "export default {} // http://dummy.com/2023-07-24+experimental" None;
     EvDispose 0 None].
Proof.
  cbv zeta.
  destruct (generate_success_trace (Stub.P1 Stub.no_faults) Stub.opts0
              Stub.w0 (snd (generate (Stub.P1 Stub.no_faults) Stub.opts0
                              Stub.w0)))
    as (base & script & res & content
        & Hb & Hr & Hn & Hd & Ht & Hw & Hx & Hes).
  { vm_compute. reflexivity. }
  injection Hb as <-.
  vm_compute in Hr. injection Hr as <-.
  vm_compute in Hd. injection Hd as <-.
  vm_compute in Ht. injection Ht as <-.
  exact Hes.
Defined.

(** X3: [generate] never retries.  Whatever the collaborators do, one call
    boots at most one instance, dispatches at most one request, writes at
    most once and disposes of its instance at most once. *)
Theorem generate_never_retries (P : Platform) (o : GenerateOptions)
    (w : World) :
  let es := events_since w (snd (generate P o w)) in
  count_events is_boot es <= 1
  /\ count_events is_dispatch es <= 1
  /\ count_events is_write es <= 1
  /\ dispose_count (next_mf w) es <= 1.
Proof.
  run_cases; unfold dispose_count;
    cbn [count_events is_boot is_dispatch is_write is_dispose_of];
    rewrite ?Nat.eqb_refl; cbn [Nat.add]; repeat split; lia.
Qed.

(** X4: [generate] stops at the first failure.  A call that fails before the
    final step is the last call of the run, every call before it succeeded,
    and its error is the one [generate] throws. *)
Theorem generate_stops_at_first_failure (P : Platform) (o : GenerateOptions)
    (w : World) :
  let '(r, w') := generate P o w in
  forall pre ev post e,
    events_since w w' = (pre ++ ev :: post)%list ->
    is_final_step ev = false ->
    event_failure ev = Some e ->
    post = []
    /\ r = Throw e
    /\ Forall (fun x => event_failure x = None) pre.
Proof.
  run_cases; intros pre ev post e' Hes Hstep Hfail; split_trace;
    cbn [event_failure is_final_step] in *;
    try discriminate;
    try (injection Hfail as <-);
    repeat split; repeat constructor.
Qed.

(** X5: a thrown [generate] does not mean an unwritten file.  The write
    and the disposal are started together and neither is undone for the
    other.  If [writeFile] stores what it is given, then in a run where the
    write succeeds and the disposal is rejected, [generate] throws the
    disposal's error, and [w'], the world in which the write has settled,
    holds the complete new content at the output path.  Nothing is said of
    the moment of the throw, which may come before the write settles. *)
Theorem generate_throws_though_write_succeeds (P : Platform)
    (o : GenerateOptions) (w : World) :
  (forall p c wa fs', writeFile P p c wa = (None, fs') -> fs' !! p = Some c) ->
  let '(r, w') := generate P o w in
  forall c e,
    In (EvWriteFile (outfilePath o) c None) (events_since w w') ->
    In (EvDispose (next_mf w) (Some e)) (events_since w w') ->
    r = Throw e /\ fs w' !! outfilePath o = Some c.
Proof.
  intros Hwrite.
  run_cases; intros c e' Hw Hd; split_In; try discriminate.
  split; [reflexivity|]. cbn [fs]. eapply Hwrite. eassumption.
Qed.

Lemma generate_throws_though_write_succeeds_witness :
  let P := Stub.P0 Stub.dispose_fails in
  let '(r, w') := generate P Stub.opts0 Stub.w0 in
  r = Throw (Error "workerd did not exit")
  /\ fs w' !! "/tmp/out.d.ts" = Some "declare const X: string;".
Proof.
  assert (forall p c wa fs',
            writeFile (Stub.P0 Stub.dispose_fails) p c wa = (None, fs') ->
            fs' !! p = Some c) as Hwrite.
  { intros p c wa fs' Hw. injection Hw as <-. apply lookup_insert_eq. }
  pose proof (generate_throws_though_write_succeeds
                (Stub.P0 Stub.dispose_fails) Stub.opts0 Stub.w0 Hwrite) as H.
  cbv zeta.
  destruct (generate (Stub.P0 Stub.dispose_fails) Stub.opts0 Stub.w0)
    as [r w'] eqn:Hrun.
  vm_compute in Hrun. injection Hrun as <- <-.
  apply (H "declare const X: string;" (Error "workerd did not exit")).
  - do 5 right. left. reflexivity.
  - do 6 right. left. reflexivity.
Defined.

(** X6: [generate] changes no file but the output file.  If [writeFile]
    leaves every path other than its own as it was, so does [generate],
    whether it succeeds or fails. *)
Theorem generate_touches_only_target (P : Platform) (o : GenerateOptions)
    (w : World) :
  (forall p c wa ow fs',
     writeFile P p c wa = (ow, fs') ->
     forall q, q <> p -> fs' !! q = fs wa !! q) ->
  forall q, q <> outfilePath o -> fs (snd (generate P o w)) !! q = fs w !! q.
Proof.
  intros Hframe q Hq.
  run_cases; try reflexivity.
  all: match goal with
       | H : writeFile _ _ _ _ = _ |- _ => apply (Hframe _ _ _ _ _ H q Hq)
       end.
Qed.

Lemma generate_touches_only_target_witness :
  fs (snd (generate (Stub.P0 Stub.write_fails) Stub.opts0 Stub.w0))
    !! Stub.scriptPath
  = fs Stub.w0 !! Stub.scriptPath.
Proof.
  apply (generate_touches_only_target
           (Stub.P0 Stub.write_fails) Stub.opts0 Stub.w0).
  - intros p c wa ow fs' Hw q Hq. cbn in Hw.
    injection Hw as _ <-. apply lookup_insert_ne. congruence.
  - discriminate.
Defined.

(** ** More on [generateRuntimeTypes] *)

(** X7: the completion message tells the truth.  A successful
    [generateRuntimeTypes] ends by logging that the types were written,
    naming the absolute output path; a run that throws has logged nothing
    but, at most, the opening message. *)
Theorem completion_logged_iff_success (P : Platform)
    (a : GenerateRuntimeTypesOptions) (w : World) :
  let '(r, w') := generateRuntimeTypes P a w in
  let es := events_since w w' in
  (r = Ok tt ->
   exists t pre,
     outFileAbsolute P (outFile a) (rootPath a) = Some t
     /\ es = (pre ++ [EvLog ("Runtime types generated and written to "
                               +:+ t +:+ " " +:+ newline)])%list)
  /\ (forall e msg,
        r = Throw e -> In (EvLog msg) es -> msg = "Generating runtime types").
Proof.
  entry_cases a.
  all: split;
    [ intros Hr; try discriminate Hr
    | intros e' msg Hr Hin; try discriminate Hr; split_In;
      try discriminate; reflexivity ].
  eexists _, [_; _; _; _; _; _; _; _; _]. split; reflexivity.
Qed.

(** X8: the configuration reaches the sandbox unchanged.  In a run of
    [generateRuntimeTypes] with compatibility date [d], every request
    dispatched is the encoding of [d] and of the configured flags (none if
    they are undefined), and a successful run has dispatched it. *)
Theorem generateRuntimeTypes_request (P : Platform)
    (a : GenerateRuntimeTypesOptions) (w : World) (d : string) :
  compatibility_date (config a) = Some d ->
  let '(r, w') := generateRuntimeTypes P a w in
  let url := requestPath d (default [] (compatibility_flags (config a))) in
  (forall id u f, In (EvDispatchFetch id u f) (events_since w w') -> u = url)
  /\ (r = Ok tt ->
      In (EvDispatchFetch (next_mf w) url None) (events_since w w')).
Proof.
  intros Hd. unfold generateRuntimeTypes. rewrite Hd.
  destruct d as [|c d];
    destruct (outFileAbsolute P (outFile a) (rootPath a));
    run_cases.
  all: split;
    [ intros; split_In; try discriminate; reflexivity
    | intros Hr; try discriminate Hr ].
  cbn [In]. tauto.
Qed.

Lemma generateRuntimeTypes_request_witness :
  let '(r, w') :=
    generateRuntimeTypes (Stub.P0 Stub.no_faults) Stub.args_rootPath
      Stub.w0 in
  let url := "http://dummy.com/2023-07-24+experimental" in
  (forall id u f,
     In (EvDispatchFetch id u f) (events_since Stub.w0 w') -> u = url)
  /\ (r = Ok tt -> In (EvDispatchFetch 0 url None) (events_since Stub.w0 w')).
Proof.
  exact (generateRuntimeTypes_request (Stub.P0 Stub.no_faults)
           Stub.args_rootPath Stub.w0 "2023-07-24" eq_refl).
Defined.

(** ** The earlier versions *)

Ltac unfold_earlier :=
  unfold V1.generateRuntimeTypes, Part000.generateRuntimeTypes,
    Part000.generate, V1.OUTFILE_RELATIVE_PATH,
    Part000.OUTFILE_RELATIVE_PATH.

(** X9: the version taking [rootPath] and [config] alone is the current one
    called with [rootPath] and no [outFile].  Both give the same result and
    the same filesystem and make the same calls; a successful run differs
    in its last log line only, which named the relative default path then
    and names the absolute output path now. *)
Theorem rootPath_call_matches_V1 (P : Platform) (root : string)
    (cfg : Config) (w : World) :
  let '(r1, w1) := V1.generateRuntimeTypes P root cfg w in
  let '(r2, w2) :=
    generateRuntimeTypes P
      {| config := cfg; outFile := None; rootPath := Some root |} w in
  r1 = r2
  /\ fs w1 = fs w2
  /\ next_mf w1 = next_mf w2
  /\ (forall e, r1 = Throw e -> w1 = w2)
  /\ (r1 = Ok tt ->
      exists pre,
        trace w1 =
          (pre ++ [EvLog ("Runtime types generated and written to "
                            +:+ "./.wrangler/types/runtime.d.ts"
                            +:+ " " +:+ newline)])%list
        /\ trace w2 =
          (pre ++ [EvLog ("Runtime types generated and written to "
                            +:+ resolve P (dirname P root)
                                  "./.wrangler/types/runtime.d.ts"
                            +:+ " " +:+ newline)])%list).
Proof.
  unfold_earlier.
  unfold generateRuntimeTypes, outFileAbsolute, DEFAULT_OUTFILE_RELATIVE_PATH.
  cbn [config outFile rootPath].
  destruct (compatibility_date cfg) as [[|c d]|]; run_cases.
  all: repeat split; try reflexivity.
  all: intros; try discriminate.
  eexists (trace w ++ [_; _; _; _; _; _; _; _; _])%list.
  rewrite <- !app_assoc. split; reflexivity.
Qed.

(** X10: both earlier versions refuse a configuration without a
    compatibility date, absent or empty, before doing anything: the error
    is thrown with the world unchanged.  Only the wording differs. *)
Theorem earlier_versions_require_date (P : Platform) (path : string)
    (cfg : Config) (w : World) :
  Js.truthy (compatibility_date cfg) = false ->
  V1.generateRuntimeTypes P path cfg w
  = (Throw (Error "Config must have a compatability date."), w)
  /\ Part000.generateRuntimeTypes P path cfg w
     = (Throw (Error "Config file must have a compatability date."), w).
Proof.
  intros Hdate. unfold_earlier.
  destruct (compatibility_date cfg) as [[|c d]|];
    [split; reflexivity | discriminate Hdate | split; reflexivity].
Qed.

Lemma earlier_versions_require_date_witness :
  Js.truthy (compatibility_date (config Stub.args_empty_date)) = false
  /\ V1.generateRuntimeTypes (Stub.P0 Stub.no_faults) "/p/wrangler.toml"
       (config Stub.args_empty_date) Stub.w0
     = (Throw (Error "Config must have a compatability date."), Stub.w0)
  /\ Part000.generateRuntimeTypes (Stub.P0 Stub.no_faults)
       "/p/wrangler.toml" (config Stub.args_empty_date) Stub.w0
     = (Throw (Error "Config file must have a compatability date."),
        Stub.w0).
Proof.
  split; [reflexivity|].
  apply (earlier_versions_require_date (Stub.P0 Stub.no_faults)
           "/p/wrangler.toml" (config Stub.args_empty_date) Stub.w0).
  reflexivity.
Defined.

(** X11: the logging [generate] announces what it does.  Every dispatch
    comes right after the log line [Fetching types from] followed by the
    very path dispatched, and every write right after [Writing types to]
    followed by the very path written. *)
Theorem Part000_generate_logs_before_acting (P : Platform)
    (o : GenerateOptions) (w : World) :
  let es := events_since w (snd (Part000.generate P o w)) in
  (forall pre id url f post,
     es = (pre ++ EvDispatchFetch id url f :: post)%list ->
     exists pre',
       pre = (pre' ++ [EvLog ("Fetching types from " +:+ url)])%list)
  /\ (forall pre p c f post,
        es = (pre ++ EvWriteFile p c f :: post)%list ->
        exists pre',
          pre = (pre' ++ [EvLog ("Writing types to " +:+ p)])%list).
Proof.
  unfold_earlier. run_cases.
  all: split; intros; split_trace; split_In; try discriminate.
  all: first [ eexists [_; _; _]; reflexivity
             | eexists [_; _; _; _; _; _]; reflexivity ].
Qed.

(** X12: the logging [generate] releases its instance as the current one
    does: [dispose] is called once, together with the write, in the runs
    that reach the write, and never in the runs that fail before it. *)
Theorem Part000_generate_disposes_with_the_write (P : Platform)
    (o : GenerateOptions) (w : World) :
  let '(r, w') := Part000.generate P o w in
  let es := events_since w w' in
  dispose_count (next_mf w) es = (if existsb is_write es then 1 else 0)
  /\ (r = Ok tt -> dispose_count (next_mf w) es = 1)
  /\ (existsb is_write es = false -> fs w' = fs w /\ exists e, r = Throw e).
Proof.
  unfold_earlier. run_cases.
  all: unfold dispose_count;
    cbn [count_events is_dispose_of existsb is_write orb];
    rewrite ?Nat.eqb_refl.
  all: repeat split; intros; try discriminate; try reflexivity; eauto.
Qed.

(** X13: the earliest entry point always writes under the directory of the
    configuration file.  With a compatibility date present, its output
    target is [./.wrangler/types/runtime.d.ts] resolved against the
    directory of [configPath]; its completion message names the relative
    path whatever that directory is. *)
Theorem Part000_output_target (P : Platform) (configPath : string)
    (cfg : Config) (w : World) :
  Js.truthy (compatibility_date cfg) = true ->
  let '(r, w') := Part000.generateRuntimeTypes P configPath cfg w in
  let es := events_since w w' in
  run_targets es r
    (resolve P (dirname P configPath) "./.wrangler/types/runtime.d.ts")
  /\ (r = Ok tt ->
      exists pre,
        es = (pre ++ [EvLog ("Runtime types generated and written to "
                               +:+ "./.wrangler/types/runtime.d.ts"
                               +:+ " " +:+ newline)])%list).
Proof.
  intros Hdate. unfold_earlier. unfold run_targets.
  destruct (compatibility_date cfg) as [[|c0 d]|];
    try discriminate Hdate.
  run_cases.
  all: split; [split; [do 2 eexists; reflexivity|]|].
  all: try (split; [intros; split_In; try discriminate; reflexivity|]).
  all: intros Hr; try discriminate Hr.
  - eexists. cbn [In]. eauto 12.
  - eexists [_; _; _; _; _; _; _; _; _; _; _]. reflexivity.
Qed.

Lemma Part000_output_target_witness :
  let '(r, w') :=
    Part000.generateRuntimeTypes (Stub.P0 Stub.no_faults)
      "/Users/me/my-project/wrangler.toml" Stub.cfg0 Stub.w0 in
  let es := events_since Stub.w0 w' in
  run_targets es r "/Users/me/my-project/.wrangler/types/runtime.d.ts"
  /\ (r = Ok tt ->
      exists pre,
        es = (pre ++ [EvLog ("Runtime types generated and written to "
                               +:+ "./.wrangler/types/runtime.d.ts"
                               +:+ " " +:+ newline)])%list).
Proof.
  exact (Part000_output_target (Stub.P0 Stub.no_faults)
           "/Users/me/my-project/wrangler.toml" Stub.cfg0 Stub.w0 eq_refl).
Defined.
